(** * koe-note utility scripts: fixture synthesis and configuration report

    A shallow embedding of [create_test_audio.py] and
    [test_medium_configs.py].

    Numbers.  Python [int]s are [Z].  Python [float]s are IEEE-754 binary64
    values ([float], with the kernel's correctly rounded operations), so the
    sample count [int(sample_rate * duration)] and the fade length
    [int(0.1 * sample_rate)] are computed as the interpreter computes them:
    the integer is converted to a double, the product is rounded to a double,
    and [int] truncates it.  The contents of numpy arrays are real numbers
    ([R]), because [np.sin] has no exact double value here: sample values are
    the exact reals that the doubles of a run approximate, and an array
    holding [inf] or [NaN] has no counterpart.

    numpy.  [np.linspace], basic slicing and the in-place broadcast multiply
    [a[lo:hi] *= w] are modelled after numpy's documented behaviour,
    including the [ValueError]s they raise.  Whether an array of a given
    length can be allocated is the machine's decision, an [allocator]. *)

From Stdlib Require Import ZArith QArith Qround Qreals Reals Lra Lia Ascii Floats.
From stdpp Require Import base tactics option list strings pretty gmap sets.

#[local] Set Warnings "-inexact-float".

Open Scope R_scope.

(** ** Exceptions and outcomes *)

Inductive exn : Type :=
  | ValueError
  | OSError
  | CalledProcessError
  | FileNotFoundError
  | OverflowError
  | IndexError
  | MemoryError
  | PermissionError.

Inductive outcome (A : Type) : Type :=
  | Ok (a : A)
  | Raise (e : exn).
Arguments Ok {A} a.
Arguments Raise {A} e.

Definition obind {A B : Type} (m : outcome A) (k : A -> outcome B) : outcome B :=
  match m with
  | Ok a => k a
  | Raise e => Raise e
  end.

Notation "'do' x <- m ; k" := (obind m (fun x => k))
  (at level 10, x name, m at level 100, k at level 200,
   format "'[v' 'do'  x  <-  m ; '/' k ']'").

(** ** Python and numpy primitives *)

Module Py.

(** Neither [inf] nor [NaN]. *)
Definition finite (x : float) : bool :=
  match Prim2SF x with
  | S754_zero _ | S754_finite _ _ _ => true
  | S754_infinity _ | S754_nan => false
  end.

(** The exact value of a finite double, as a fraction. *)
Definition rational (x : float) : Q :=
  match Prim2SF x with
  | S754_finite s m e =>
      ((if s then Z.neg m else Z.pos m) * 2 ^ Z.max e 0
       # Z.to_pos (2 ^ Z.max (- e) 0))
  | _ => 0%Q
  end.

Definition real (x : float) : R := Q2R (rational x).

(** Truncation of a fraction toward zero. *)
Definition trunc (q : Q) : Z := Z.quot (Qnum q) (Z.pos (Qden q)).

(** [int(x)] on a float: truncation toward zero; [OverflowError] on an
    infinity, [ValueError] on [NaN]. *)
Definition int (x : float) : outcome Z :=
  match Prim2SF x with
  | S754_nan => Raise ValueError
  | S754_infinity _ => Raise OverflowError
  | S754_zero _ | S754_finite _ _ _ => Ok (trunc (rational x))
  end.

(** The conversion of an [int] operand in mixed arithmetic: the nearest
    double, ties to even; [OverflowError] when that is out of range. *)
Definition float (z : Z) : outcome PrimFloat.float :=
  let x := SF2Prim (binary_normalize prec emax z 0 false) in
  if finite x then Ok x else Raise OverflowError.

(** [round(x)]: nearest integer, ties to the even one. *)
Definition round (x : Q) : Z :=
  let lo := Qfloor x in
  match Qcompare (x - inject_Z lo) (1 # 2) with
  | Lt => lo
  | Gt => (lo + 1)%Z
  | Eq => if Z.even lo then lo else (lo + 1)%Z
  end.

(** Resolution of one slice bound [i] against an array of length [len]:
    negative bounds count from the end, and the result is clipped to
    [0 .. len]. *)
Definition slice_bound (len : nat) (i : Z) : nat :=
  if (i <? 0)%Z then Z.to_nat (Z.max 0 (Z.of_nat len + i))
  else Z.to_nat (Z.min i (Z.of_nat len)).

End Py.

Module Np.

(** What the machine answers when numpy asks for an array of [num]
    elements: [None] when the array is allocated, or the exception numpy
    raises ([MemoryError], or [IndexError] for a length that is no index). *)
Abbreviation allocator := (Z -> option exn).

(** A machine on which every allocation succeeds. *)
Definition ample : allocator := fun _ => None.

(** Element [i] of [np.linspace(start, stop, num)] (endpoint included):
    [div = num - 1], [step = delta / div], [y = arange(num) * step + start],
    and the last element is overwritten by [stop] when [num > 1]; with
    [div = 0] numpy computes [arange(num) * delta + start] instead. *)
Definition linspace_at (start stop : R) (num i : nat) : R :=
  let div := (num - 1)%nat in
  let delta := stop - start in
  if (0 <? div)%nat then
    if (i =? div)%nat then stop else INR i * (delta / INR div) + start
  else INR i * delta + start.

(** The [num] elements of a successful [np.linspace(start, stop, num)]. *)
Definition ramp (start stop : R) (num : nat) : list R :=
  linspace_at start stop num <$> seq 0 num.

(** [np.linspace(start, stop, num)]; a negative [num] raises [ValueError]. *)
Definition linspace (alloc : allocator) (start stop : R) (num : Z)
  : outcome (list R) :=
  if (num <? 0)%Z then Raise ValueError
  else match alloc num with
       | Some x => Raise x
       | None => Ok (ramp start stop (Z.to_nat num))
       end.

(** The array [a] after the window starting at [lo] has been multiplied
    pointwise by [w]. *)
Definition scale_window (a : list R) (lo : nat) (w : list R) : list R :=
  imap (fun i x =>
          if ((lo <=? i) && (i <? lo + length w))%nat
          then x * nth (i - lo) w 1 else x) a.

(** [a[lo:hi] *= w] for one-dimensional arrays.  The view [a[lo:hi]] has
    [hi - lo] elements (none when [hi <= lo]).  The multiply succeeds when
    [w] has as many elements, or when [w] has exactly one element, which is
    then broadcast over the view; every other shape raises [ValueError].
    The update is in place: the result is the whole of [a]. *)
Definition imul_slice (a : list R) (lo hi : nat) (w : list R) : outcome (list R) :=
  let m := (hi - lo)%nat in
  if (length w =? m)%nat then Ok (scale_window a lo w)
  else if (length w =? 1)%nat then Ok (scale_window a lo (replicate m (nth 0 w 1)))
  else Raise ValueError.

End Np.

(** ** create_test_audio.py, lines 21-27: the waveform *)

(** The raw tone [amplitude * np.sin(2 * np.pi * frequency * t)]. *)
Definition tone (frequency amplitude : float) (t : list R) : list R :=
  (fun ti => Py.real amplitude * sin (2 * PI * Py.real frequency * ti)) <$> t.

(** Line 21: [int(sample_rate * duration)], an [int] times a [float]. *)
Definition sample_count (sample_rate : Z) (duration : float) : outcome Z :=
  do rate <- Py.float sample_rate;
  Py.int (rate * duration)%float.

(** Line 25: [int(0.1 * sample_rate)], a [float] times an [int]. *)
Definition fade_samples (sample_rate : Z) (fade_seconds : float) : outcome Z :=
  do rate <- Py.float sample_rate;
  Py.int (fade_seconds * rate)%float.

(** Lines 21-27 with the constants of lines 16-18, 22 and 25 as arguments:
    [sample_rate], [duration], [frequency], the amplitude [0.3] and the
    fade time [0.1]; [alloc] is the machine the lines run on. *)
Definition synthesize (alloc : Np.allocator) (sample_rate : Z)
    (duration frequency amplitude fade_seconds : float)
  : outcome (list R) :=
  do n <- sample_count sample_rate duration;
  do t <- Np.linspace alloc 0 (Py.real duration) n;
  let audio_data := tone frequency amplitude t in
  do fade <- fade_samples sample_rate fade_seconds;
  let n := length audio_data in
  let head_stop := Py.slice_bound n fade in
  do up <- Np.linspace alloc 0 1 fade;
  do audio_data <- Np.imul_slice audio_data 0 head_stop up;
  let tail_start := Py.slice_bound n (- fade) in
  do down <- Np.linspace alloc 1 0 fade;
  Np.imul_slice audio_data tail_start n down.

(** The time axis and the raw tone of a run with [n] samples. *)
Definition time_axis (duration : float) (n : nat) : list R :=
  Np.ramp 0 (Py.real duration) n.

Definition raw (duration frequency amplitude : float) (n : nat) : list R :=
  tone frequency amplitude (time_axis duration n).

(** Magnitude bound on an array, and gains taken from [0, 1]. *)
Definition bounded (A : R) (l : list R) : Prop := Forall (fun x => Rabs x <= A) l.
Definition unit_gains (w : list R) : Prop := Forall (fun g => 0 <= g <= 1) w.

(** The waveform of [create_test_audio]: the values of lines 16-18, 22, 25,
    on a machine with room for the arrays. *)
Definition fixture : outcome (list R) :=
  synthesize Np.ample 44100 5 440 0.3 0.1.

(** The parameter constraints of the specification, on doubles. *)
Record valid_parameters (sample_rate : Z)
    (duration frequency amplitude fade_seconds : float) : Prop := {
  valid_sample_rate : (0 < sample_rate)%Z;
  valid_duration :
    (0 <? duration)%float = true /\ Py.finite duration = true;
  valid_frequency :
    (0 <? frequency)%float = true /\ Py.finite frequency = true;
  valid_amplitude :
    (0 <? amplitude)%float = true /\ (amplitude <=? 1)%float = true;
  valid_fade :
    (0 <=? fade_seconds)%float = true
    /\ (fade_seconds <=? duration / 2)%float = true
}.

(** The fade of the specification: a linear ramp of [f] values from [a] to
    [b], both endpoints included, so that value [j] lies [j / (f - 1)] of the
    way from [a] to [b]. *)
Module Spec.

Definition ramp (a b : R) (f j : nat) : R :=
  a + (b - a) * (INR j / INR (f - 1)).

(** Sample [i] of [n] after fading with windows of [f] samples. *)
Definition faded (n f i : nat) (x : R) : R :=
  if (i <? f)%nat then x * ramp 0 1 f i
  else if (n - f <=? i)%nat then x * ramp 1 0 f (i - (n - f))
  else x.

End Spec.

(** The gain each in-place multiply applies to sample [i] of [n] samples
    with a fade of [f] samples: line 26 acts on the first [f] places, line 27
    on the last [f]. *)
Definition head_gain (f i : nat) : R :=
  if (i <? f)%nat then Np.linspace_at 0 1 f i else 1.

Definition tail_gain (n f i : nat) : R :=
  if (n - f <=? i)%nat then Np.linspace_at 1 0 f (i - (n - f)) else 1.

(** The condition under which both multiplies have compatible shapes. *)
Definition shapes_fit (n f : Z) : Prop :=
  (0 <= n)%Z /\ ((1 <= f <= n)%Z \/ (n = 0%Z /\ (0 <= f <= 1)%Z)).

(** ** The same lines over a store of numpy arrays

    [t] and [audio_data] are array objects; [audio_data[:k]] is a view of
    [audio_data], and [*=] on the view writes into the array itself. *)

Module Store.

(** The arrays allocated so far; a reference is a position in the list. *)
Abbreviation heap := (list (list R)).
Definition M (A : Type) : Type := heap -> outcome (A * heap).

Definition ret {A : Type} (a : A) : M A := fun h => Ok (a, h).

Definition bind {A B : Type} (m : M A) (k : A -> M B) : M B :=
  fun h => match m h with
           | Ok (a, h') => k a h'
           | Raise e => Raise e
           end.

Definition lift {A : Type} (o : outcome A) : M A :=
  fun h => match o with Ok a => Ok (a, h) | Raise e => Raise e end.

Definition alloc (a : list R) : M nat := fun h => Ok (length h, h ++ [a]).

Definition read (r : nat) : M (list R) :=
  fun h => match h !! r with Some a => Ok (a, h) | None => Raise ValueError end.

Definition write (r : nat) (a : list R) : M unit := fun h => Ok (tt, <[r := a]> h).

(** [base[lo:hi] *= w], through the view. *)
Definition imul_view (base lo hi : nat) (w : list R) : M unit :=
  bind (read base) (fun a =>
  bind (lift (Np.imul_slice a lo hi w)) (fun a' =>
  write base a')).

End Store.

Notation "'run' x <- m ; k" := (Store.bind m (fun x => k))
  (at level 10, x name, m at level 100, k at level 200,
   format "'[v' 'run'  x  <-  m ; '/' k ']'").

Definition synthesize_st (alloc : Np.allocator) (sample_rate : Z)
    (duration frequency amplitude fade_seconds : float)
  : Store.M nat :=
  run n <- Store.lift (sample_count sample_rate duration);
  run t' <- Store.lift (Np.linspace alloc 0 (Py.real duration) n);
  run t <- Store.alloc t';
  run tv <- Store.read t;
  run audio_data <- Store.alloc (tone frequency amplitude tv);
  run fade <- Store.lift (fade_samples sample_rate fade_seconds);
  run a <- Store.read audio_data;
  let n := length a in
  let head_stop := Py.slice_bound n fade in
  run up <- Store.lift (Np.linspace alloc 0 1 fade);
  run u1 <- Store.imul_view audio_data 0 head_stop up;
  let tail_start := Py.slice_bound n (- fade) in
  run down <- Store.lift (Np.linspace alloc 1 0 fade);
  run u2 <- Store.imul_view audio_data tail_start n down;
  Store.ret audio_data.

(** ** create_test_audio.py, lines 29-70: writing and converting *)

Module Persist.

(** What a file holds, by the call that wrote it: [Blank] is the empty file
    [NamedTemporaryFile] creates, [Wav samples rate] whatever
    [sf.write(path, samples, rate)] leaves on disk, and [Opus samples rate]
    whatever ffmpeg leaves when it converts such a file.  The byte formats
    are those libraries' own. *)
Inductive file : Type :=
  | Blank
  | Wav (samples : list R) (rate : Z)
  | Opus (samples : list R) (rate : Z).

(** How lines 42-51 can go.  [Exit0]: ffmpeg exits with status 0 and has
    written its output.  [ExitNonZero]: [check=True] raises
    [CalledProcessError].  [NotInstalled]: [subprocess.run] raises
    [FileNotFoundError].  [Exit0NoOutput]: status 0, but nothing was written.
    [RunRaises x]: [subprocess.run] raises [x].  [StatRaises x]: status 0
    and the output is written, but [webm_path.stat()] raises [x]. *)
Inductive encoder_result : Type :=
  | Exit0
  | ExitNonZero
  | NotInstalled
  | Exit0NoOutput
  | RunRaises (x : exn)
  | StatRaises (x : exn).

(** What the operating system decides during one run. *)
Record env : Type := {
  mkdir_error : option exn;
  temp_name : string;
  sf_write_error : option exn;
  ffmpeg : encoder_result;
  copy_error : option exn
}.

Definition test_dir : string := "D:/work/voise-encoder/test-audio".
Definition webm_path : string := test_dir +:+ "/test_audio_440hz_5sec.webm".
Definition wav_path : string := test_dir +:+ "/test_audio_440hz_5sec.wav".
Definition sample_rate : Z := 44100.

(** Line 51: [webm_path.stat()] raises [FileNotFoundError] when there is no
    such file. *)
Definition stat (fs : gmap string file)
  : gmap string file * outcome (option string) :=
  match fs !! webm_path with
  | Some _ => (fs, Ok (Some webm_path))
  | None => (fs, Raise FileNotFoundError)
  end.

(** Lines 42-52: the body of [try]. *)
Definition try_body (e : env) (audio_data : list R) (fs : gmap string file)
  : gmap string file * outcome (option string) :=
  match ffmpeg e with
  | Exit0 => stat (<[webm_path := Opus audio_data sample_rate]> fs)
  | ExitNonZero => (fs, Raise CalledProcessError)
  | NotInstalled => (fs, Raise FileNotFoundError)
  | Exit0NoOutput => stat fs
  | RunRaises x => (fs, Raise x)
  | StatRaises x => (<[webm_path := Opus audio_data sample_rate]> fs, Raise x)
  end.

(** Lines 54-66: the two [except] clauses. *)
Definition handlers (e : env) (temp_wav_path : string)
    (r : gmap string file * outcome (option string))
  : gmap string file * outcome (option string) :=
  match r with
  | (fs, Raise CalledProcessError) => (fs, Ok None)
  | (fs, Raise FileNotFoundError) =>
      match fs !! temp_wav_path with
      | None => (fs, Raise FileNotFoundError)
      | Some data =>
          match copy_error e with
          | Some x => (fs, Raise x)
          | None => (<[wav_path := data]> fs, Ok (Some wav_path))
          end
      end
  | _ => r
  end.

(** Lines 68-70: [finally: Path(temp_wav_path).unlink(missing_ok=True)]. *)
Definition finally (temp_wav_path : string)
    (r : gmap string file * outcome (option string))
  : gmap string file * outcome (option string) :=
  (delete temp_wav_path r.1, r.2).

(** Lines 29-70, given the outcome of lines 21-27: the file system after
    the call and its result ([None], a path, or the exception that leaves
    the function). *)
Definition persist (audio : outcome (list R)) (e : env) (fs : gmap string file)
  : gmap string file * outcome (option string) :=
  match audio with
  | Raise x => (fs, Raise x)
  | Ok audio_data =>
      match mkdir_error e with
      | Some x => (fs, Raise x)
      | None =>
          let temp_wav_path := temp_name e in
          let fs1 := <[temp_wav_path := Blank]> fs in
          match sf_write_error e with
          | Some x => (fs1, Raise x)
          | None =>
              let fs2 := <[temp_wav_path := Wav audio_data sample_rate]> fs1 in
              finally temp_wav_path
                (handlers e temp_wav_path (try_body e audio_data fs2))
          end
      end
  end.

(** [create_test_audio()]. *)
Definition create_test_audio (e : env) (fs : gmap string file)
  : gmap string file * outcome (option string) :=
  persist fixture e fs.

End Persist.

(** ** test_medium_configs.py, lines 49-58 *)

Module Config.

(** [posixpath.join] of two components. *)
Fixpoint ends_with_sep (s : string) : bool :=
  match s with
  | EmptyString => false
  | String c EmptyString => Ascii.eqb c "/"%char
  | String _ rest => ends_with_sep rest
  end.

Definition join (a b : string) : string :=
  if String.prefix "/" b then b
  else if orb (String.eqb a EmptyString) (ends_with_sep a) then a +:+ b
  else a +:+ "/" +:+ b.

(** Everything the script could touch: the files, the module-level
    constant imported from [whisper_server.config], and standard output. *)
Record world : Type := {
  files : gmap string string;
  CURRENT_MEDIUM_CONFIG_VERSION : Z;
  stdout : list string
}.

Definition print (line : string) (w : world) : world :=
  {| files := files w;
     CURRENT_MEDIUM_CONFIG_VERSION := CURRENT_MEDIUM_CONFIG_VERSION w;
     stdout := stdout w ++ [line] |}.

(** The path built on lines 51-52; [script_dir] is
    [os.path.dirname(__file__)]. *)
Definition config_file (script_dir : string) : string :=
  join (join (join (join script_dir "whisper-server") "src") "whisper_server") "config.py".

(** The five lines printed on lines 54-58. *)
Definition instructions (script_dir : string) (version : Z) : list string :=
  [ "設定バージョンを " +:+ pretty version +:+ " に変更するには:";
    "1. " +:+ config_file script_dir +:+ " を開く";
    "2. CURRENT_MEDIUM_CONFIG_VERSION = " +:+ pretty version +:+ " に変更";
    "3. ファイルを保存";
    "4. Pythonサーバーを再起動" ].

Definition change_config_version (script_dir : string) (version : Z) (w : world) : world :=
  let config_file := config_file script_dir in
  let w := print ("設定バージョンを " +:+ pretty version +:+ " に変更するには:") w in
  let w := print ("1. " +:+ config_file +:+ " を開く") w in
  let w := print ("2. CURRENT_MEDIUM_CONFIG_VERSION = " +:+ pretty version +:+ " に変更") w in
  let w := print "3. ファイルを保存" w in
  print "4. Pythonサーバーを再起動" w.

End Config.

(** Closed instances of [valid_parameters] are settled by evaluation. *)
Ltac valid_by_computation :=
  split; repeat split; try reflexivity; try (by vm_compute).

(** The exact value of a double literal, written out as a fraction. *)
Ltac real_constants :=
  unfold Py.real;
  repeat match goal with
         | |- context [Py.rational ?x] =>
             let q := eval vm_compute in (Py.rational x) in
             change (Py.rational x) with q
         end;
  unfold Q2R; cbn [Qnum Qden].

(** ** Facts about the primitives *)

Section primitives.

Example int_truncates_up : Py.int (-2.75) = Ok (- 2)%Z.
Proof. reflexivity. Qed.

Example int_truncates_down : Py.int 2.75 = Ok 2%Z.
Proof. reflexivity. Qed.

Example int_of_infinity : Py.int infinity = Raise OverflowError.
Proof. reflexivity. Qed.

Example int_of_nan : Py.int nan = Raise ValueError.
Proof. reflexivity. Qed.

Example float_out_of_range : Py.float (10 ^ 400) = Raise OverflowError.
Proof. by vm_compute. Qed.

Example round_nearest : Py.round (11 # 4) = 3%Z.
Proof. reflexivity. Qed.

Example round_half_even : Py.round (5 # 2) = 2%Z /\ Py.round (7 # 2) = 4%Z.
Proof. split; reflexivity. Qed.

Example slice_bound_tail : Py.slice_bound 5 (- 2) = 3%nat.
Proof. reflexivity. Qed.

Example slice_bound_minus_zero : Py.slice_bound 5 (- 0) = 0%nat.
Proof. reflexivity. Qed.

Example slice_bound_clipped :
  Py.slice_bound 5 9 = 5%nat /\ Py.slice_bound 5 (- 9) = 0%nat.
Proof. split; reflexivity. Qed.

(** The products are the rounded ones: [10 * 0.7] is the double [7.0],
    although the exact product of 10 and the double [0.7] is below 7. *)
Example rounded_product_count : sample_count 10 0.7 = Ok 7%Z.
Proof. reflexivity. Qed.

Example rounded_product_fade : fade_samples 3 (2 / 3) = Ok 2%Z.
Proof. reflexivity. Qed.

Lemma float_finite (z : Z) (x : float) : Py.float z = Ok x -> Py.finite x = true.
Proof. unfold Py.float. case_match; congruence. Qed.

Lemma int_mul_zero_l (x : float) :
  Py.finite x = true -> Py.int (0 * x)%float = Ok 0%Z.
Proof.
  unfold Py.finite, Py.int, Py.rational. rewrite mul_spec.
  change (Prim2SF 0) with (S754_zero false).
  destruct (Prim2SF x); intros H; try discriminate H; reflexivity.
Qed.

Lemma int_mul_zero_r (x : float) :
  Py.finite x = true -> Py.int (x * 0)%float = Ok 0%Z.
Proof.
  unfold Py.finite, Py.int, Py.rational. rewrite mul_spec.
  change (Prim2SF 0) with (S754_zero false).
  destruct (Prim2SF x); intros H; try discriminate H; reflexivity.
Qed.

Lemma linspace_ok (alloc : Np.allocator) (start stop : R) (num : Z) :
  (0 <= num)%Z -> alloc num = None ->
  Np.linspace alloc start stop num = Ok (Np.ramp start stop (Z.to_nat num)).
Proof.
  intros H Ha. unfold Np.linspace. by rewrite (proj2 (Z.ltb_ge num 0) H), Ha.
Qed.

Lemma linspace_inv (alloc : Np.allocator) (start stop : R) (num : Z) (l : list R) :
  Np.linspace alloc start stop num = Ok l ->
  l = Np.ramp start stop (Z.to_nat num) /\ (0 <= num)%Z /\ alloc num = None.
Proof.
  unfold Np.linspace. destruct (Z.ltb_spec num 0); [done|].
  destruct (alloc num); [done|]. by intros [= <-].
Qed.

Lemma ramp_length (start stop : R) (num : nat) :
  length (Np.ramp start stop num) = num.
Proof. unfold Np.ramp. by rewrite length_fmap, length_seq. Qed.

Lemma linspace_length (alloc : Np.allocator) (start stop : R) (num : Z) (l : list R) :
  Np.linspace alloc start stop num = Ok l -> length l = Z.to_nat num /\ (0 <= num)%Z.
Proof.
  intros (-> & Hn & _)%linspace_inv. by rewrite ramp_length.
Qed.

Lemma ramp_lookup (start stop : R) (num i : nat) :
  (i < num)%nat ->
  Np.ramp start stop num !! i = Some (Np.linspace_at start stop num i).
Proof.
  intros Hi. unfold Np.ramp. rewrite list_lookup_fmap, lookup_seq_lt by done. done.
Qed.

(** Both ramps of the fade stay inside [0, 1]. *)
Lemma linspace_at_up_range (num i : nat) :
  (i < num)%nat -> 0 <= Np.linspace_at 0 1 num i <= 1.
Proof.
  intros Hi. unfold Np.linspace_at.
  destruct (Nat.ltb_spec 0 (num - 1)) as [Hd|Hd].
  - destruct (Nat.eqb_spec i (num - 1)); [lra|].
    assert (0 < INR (num - 1)) by (apply lt_0_INR; lia).
    assert (0 <= INR i) by apply pos_INR.
    assert (INR i <= INR (num - 1)) by (apply le_INR; lia).
    replace (INR i * ((1 - 0) / INR (num - 1)) + 0) with (INR i / INR (num - 1))
      by (field; lra).
    split.
    + apply Rmult_le_pos; [done|]. left. by apply Rinv_0_lt_compat.
    + apply (Rmult_le_reg_r (INR (num - 1))); [done|].
      unfold Rdiv. rewrite Rmult_assoc, Rinv_l by lra. lra.
  - replace i with 0%nat by lia. simpl. lra.
Qed.

Lemma linspace_at_down_range (num i : nat) :
  (i < num)%nat -> 0 <= Np.linspace_at 1 0 num i <= 1.
Proof.
  intros Hi. unfold Np.linspace_at.
  destruct (Nat.ltb_spec 0 (num - 1)) as [Hd|Hd].
  - destruct (Nat.eqb_spec i (num - 1)); [lra|].
    assert (0 < INR (num - 1)) by (apply lt_0_INR; lia).
    assert (0 <= INR i) by apply pos_INR.
    assert (INR i <= INR (num - 1)) by (apply le_INR; lia).
    replace (INR i * ((0 - 1) / INR (num - 1)) + 1) with (1 - INR i / INR (num - 1))
      by (field; lra).
    assert (0 <= INR i / INR (num - 1) <= 1); [|lra].
    split.
    + apply Rmult_le_pos; [done|]. left. by apply Rinv_0_lt_compat.
    + apply (Rmult_le_reg_r (INR (num - 1))); [done|].
      unfold Rdiv. rewrite Rmult_assoc, Rinv_l by lra. lra.
  - replace i with 0%nat by lia. simpl. lra.
Qed.

Lemma scale_window_length (a : list R) (lo : nat) (w : list R) :
  length (Np.scale_window a lo w) = length a.
Proof. apply length_imap. Qed.

Lemma scale_window_lookup (a : list R) (lo : nat) (w : list R) (i : nat) (x : R) :
  a !! i = Some x ->
  Np.scale_window a lo w !! i
  = Some (if ((lo <=? i) && (i <? lo + length w))%nat
          then x * nth (i - lo) w 1 else x).
Proof. intros Hx. unfold Np.scale_window. by rewrite list_lookup_imap, Hx. Qed.

Lemma imul_slice_length (a : list R) (lo hi : nat) (w a' : list R) :
  Np.imul_slice a lo hi w = Ok a' -> length a' = length a.
Proof.
  unfold Np.imul_slice. repeat case_match; intros [= <-];
    apply scale_window_length.
Qed.

Lemma imul_slice_same_shape (a : list R) (lo hi : nat) (w : list R) :
  length w = (hi - lo)%nat -> Np.imul_slice a lo hi w = Ok (Np.scale_window a lo w).
Proof. intros Hw. unfold Np.imul_slice. by rewrite Hw, Nat.eqb_refl. Qed.

Lemma imul_slice_shape_mismatch (a : list R) (lo hi : nat) (w : list R) :
  length w <> (hi - lo)%nat -> length w <> 1%nat ->
  Np.imul_slice a lo hi w = Raise ValueError.
Proof.
  intros Hm H1. unfold Np.imul_slice.
  destruct (Nat.eqb_spec (length w) (hi - lo)); [done|].
  by destruct (Nat.eqb_spec (length w) 1).
Qed.

Lemma imul_slice_ok_shape (a : list R) (lo hi : nat) (w a' : list R) :
  Np.imul_slice a lo hi w = Ok a' ->
  length w = (hi - lo)%nat \/ length w = 1%nat.
Proof.
  unfold Np.imul_slice.
  destruct (Nat.eqb_spec (length w) (hi - lo)); [by left|].
  destruct (Nat.eqb_spec (length w) 1); [by right|done].
Qed.

Lemma imul_slice_raises (a : list R) (lo hi : nat) (w : list R) (e : exn) :
  Np.imul_slice a lo hi w = Raise e -> e = ValueError.
Proof. unfold Np.imul_slice. repeat case_match; congruence. Qed.

(** Multiplying by gains taken from [0, 1] never raises the magnitude. *)
Lemma unit_gains_nth (w : list R) (j : nat) :
  unit_gains w -> 0 <= nth j w 1 <= 1.
Proof.
  intros Hw. rewrite nth_lookup. destruct (w !! j) as [g|] eqn:Hg; simpl.
  - by apply (Forall_lookup_1 _ _ _ _ Hw Hg).
  - lra.
Qed.

Lemma scale_window_bounded (A : R) (a : list R) (lo : nat) (w : list R) :
  bounded A a -> unit_gains w -> bounded A (Np.scale_window a lo w).
Proof.
  intros Ha Hw. apply Forall_lookup_2. intros i y.
  unfold Np.scale_window. rewrite list_lookup_imap.
  destruct (a !! i) as [x|] eqn:Hx; [|done]. simpl. intros [= <-].
  pose proof (Forall_lookup_1 _ _ _ _ Ha Hx) as Hb. simpl in Hb.
  case_match; [|done].
  pose proof (unit_gains_nth w (i - lo) Hw) as [Hg0 Hg1].
  rewrite Rabs_mult, (Rabs_right (nth _ _ _)) by lra.
  pose proof (Rabs_pos x). nra.
Qed.

Lemma ramp_up_gains (num : nat) : unit_gains (Np.ramp 0 1 num).
Proof.
  apply Forall_fmap, Forall_forall. intros i Hi. apply elem_of_seq in Hi.
  apply linspace_at_up_range. lia.
Qed.

Lemma ramp_down_gains (num : nat) : unit_gains (Np.ramp 1 0 num).
Proof.
  apply Forall_fmap, Forall_forall. intros i Hi. apply elem_of_seq in Hi.
  apply linspace_at_down_range. lia.
Qed.

Lemma tone_bounded (frequency amplitude : float) (t : list R) :
  0 <= Py.real amplitude ->
  bounded (Py.real amplitude) (tone frequency amplitude t).
Proof.
  intros Ha. unfold bounded, tone. apply Forall_fmap, Forall_forall.
  intros ti _. simpl.
  rewrite Rabs_mult, (Rabs_right (Py.real amplitude)) by lra.
  pose proof (SIN_bound (2 * PI * Py.real frequency * ti)) as [Hlo Hhi].
  assert (Rabs (sin (2 * PI * Py.real frequency * ti)) <= 1)
    by (apply Rabs_le; lra).
  nra.
Qed.

Lemma tone_length (frequency amplitude : float) (t : list R) :
  length (tone frequency amplitude t) = length t.
Proof. apply length_fmap. Qed.

Lemma raw_length (duration frequency amplitude : float) (n : nat) :
  length (raw duration frequency amplitude n) = n.
Proof. unfold raw, time_axis. by rewrite tone_length, ramp_length. Qed.

Lemma ramp_first (a b : R) (f : nat) : Spec.ramp a b f 0 = a.
Proof. unfold Spec.ramp. change (INR 0) with 0. unfold Rdiv. ring. Qed.

Lemma ramp_last (a b : R) (f : nat) :
  (2 <= f)%nat -> Spec.ramp a b f (f - 1) = b.
Proof.
  intros Hf. unfold Spec.ramp.
  assert (0 < INR (f - 1)) by (apply lt_0_INR; lia).
  unfold Rdiv. rewrite Rinv_r by lra. ring.
Qed.

(** numpy's [linspace] is the ramp of the specification. *)
Lemma linspace_at_ramp (a b : R) (f j : nat) :
  (j < f)%nat -> Np.linspace_at a b f j = Spec.ramp a b f j.
Proof.
  intros Hj. unfold Np.linspace_at, Spec.ramp.
  destruct (Nat.ltb_spec 0 (f - 1)) as [Hd|Hd].
  - assert (0 < INR (f - 1)) by (apply lt_0_INR; lia).
    destruct (Nat.eqb_spec j (f - 1)) as [->|_].
    + unfold Rdiv. rewrite Rinv_r by lra. ring.
    + unfold Rdiv. ring.
  - replace j with 0%nat by lia. change (INR 0) with 0. unfold Rdiv. ring.
Qed.

Lemma nth_ramp (a b : R) (f j : nat) :
  (j < f)%nat -> nth j (Np.ramp a b f) 1 = Np.linspace_at a b f j.
Proof. intros Hj. by rewrite nth_lookup, ramp_lookup. Qed.

End primitives.

(** ** Facts about [synthesize] *)

Section synthesize_facts.

Variables (alloc : Np.allocator) (sample_rate : Z).
Variables (duration frequency amplitude fade_seconds : float).

#[local] Abbreviation synth := (synthesize alloc sample_rate duration frequency amplitude fade_seconds).
#[local] Abbreviation wave n := (raw duration frequency amplitude (Z.to_nat n)).

(** Once the two counts are known and the arrays allocated, the run is the
    two in-place multiplies. *)
Lemma synthesize_multiplies (n f : Z) :
  sample_count sample_rate duration = Ok n ->
  fade_samples sample_rate fade_seconds = Ok f ->
  (0 <= n)%Z -> alloc n = None -> (0 <= f)%Z -> alloc f = None ->
  synth = (do a1 <- Np.imul_slice (wave n) 0 (Py.slice_bound (Z.to_nat n) f)
                    (Np.ramp 0 1 (Z.to_nat f));
         Np.imul_slice a1 (Py.slice_bound (Z.to_nat n) (- f)) (Z.to_nat n)
           (Np.ramp 1 0 (Z.to_nat f))).
Proof.
  intros Hn Hf Hn0 Han Hf0 Haf. unfold synthesize. rewrite Hn. cbn [obind].
  rewrite linspace_ok by done. cbn [obind]. cbv zeta. rewrite Hf. cbn [obind].
  rewrite !linspace_ok by done. cbn [obind].
  change (tone frequency amplitude _) with (wave n).
  by rewrite raw_length.
Qed.

(** The steps behind a successful run. *)
Lemma synthesize_inv (w : list R) :
  synth = Ok w ->
  exists (n f : Z) (a1 : list R),
    sample_count sample_rate duration = Ok n
    /\ fade_samples sample_rate fade_seconds = Ok f
    /\ (0 <= n)%Z /\ alloc n = None /\ (0 <= f)%Z /\ alloc f = None
    /\ Np.imul_slice (wave n) 0 (Py.slice_bound (Z.to_nat n) f)
         (Np.ramp 0 1 (Z.to_nat f)) = Ok a1
    /\ Np.imul_slice a1 (Py.slice_bound (Z.to_nat n) (- f)) (Z.to_nat n)
         (Np.ramp 1 0 (Z.to_nat f)) = Ok w.
Proof.
  unfold synthesize.
  destruct (sample_count sample_rate duration) as [n|] eqn:Hn; [|done].
  cbn [obind].
  destruct (Np.linspace alloc 0 _ n) as [t|] eqn:Ht; [|done].
  apply linspace_inv in Ht as (-> & Hn0 & Han). cbn [obind]. cbv zeta.
  destruct (fade_samples sample_rate fade_seconds) as [f|] eqn:Hf; [|done].
  cbn [obind].
  destruct (Np.linspace alloc 0 1 f) as [g|] eqn:Hg; [|done].
  apply linspace_inv in Hg as (-> & Hf0 & Haf). cbn [obind].
  change (tone frequency amplitude _) with (wave n). rewrite raw_length.
  destruct (Np.imul_slice _ 0 _ _) as [a1|] eqn:Ha1; [|done]. cbn [obind].
  rewrite linspace_ok by done. cbn [obind].
  intros Hw. by exists n, f, a1.
Qed.

Lemma synthesize_length (w : list R) (n : Z) :
  sample_count sample_rate duration = Ok n ->
  synth = Ok w -> (0 <= n)%Z /\ length w = Z.to_nat n.
Proof.
  intros Hn (n' & f & a1 & Hn' & _ & Hn0 & _ & _ & _ & Ha1 & Hw)%synthesize_inv.
  rewrite Hn in Hn'. injection Hn' as <-. split; [done|].
  apply imul_slice_length in Hw, Ha1.
  by rewrite Hw, Ha1, raw_length.
Qed.

Lemma synthesize_bounded (w : list R) :
  0 <= Py.real amplitude -> synth = Ok w -> bounded (Py.real amplitude) w.
Proof.
  intros Hamp (n & f & a1 & _ & _ & _ & _ & _ & _ & Ha1 & Hw)%synthesize_inv.
  assert (Hb1 : bounded (Py.real amplitude) a1).
  { revert Ha1. unfold Np.imul_slice. repeat case_match; intros [= <-];
      (apply scale_window_bounded; [by apply tone_bounded|]).
    - apply ramp_up_gains.
    - apply Forall_replicate, unit_gains_nth, ramp_up_gains. }
  revert Hw. unfold Np.imul_slice. repeat case_match; intros [= <-];
    (apply scale_window_bounded; [done|]).
  - apply ramp_down_gains.
  - apply Forall_replicate, unit_gains_nth, ramp_down_gains.
Qed.

(** A fade of at least one sample that is no longer than the waveform: both
    views have [f] elements, also when the two windows overlap. *)
Lemma synthesize_faded (n f : Z) :
  sample_count sample_rate duration = Ok n ->
  fade_samples sample_rate fade_seconds = Ok f ->
  alloc n = None -> alloc f = None ->
  (1 <= f)%Z -> (f <= n)%Z ->
  synth = Ok (Np.scale_window (Np.scale_window (wave n) 0 (Np.ramp 0 1 (Z.to_nat f)))
              (Z.to_nat n - Z.to_nat f) (Np.ramp 1 0 (Z.to_nat f))).
Proof.
  intros Hn Hf Han Haf Hf1 Hfn.
  rewrite (synthesize_multiplies n f) by (done || lia).
  assert (Hhead : Py.slice_bound (Z.to_nat n) f = Z.to_nat f).
  { unfold Py.slice_bound. destruct (Z.ltb_spec f 0); lia. }
  assert (Htail : Py.slice_bound (Z.to_nat n) (- f) = (Z.to_nat n - Z.to_nat f)%nat).
  { unfold Py.slice_bound. destruct (Z.ltb_spec (- f) 0); lia. }
  rewrite Hhead, Htail.
  rewrite imul_slice_same_shape by (rewrite ramp_length; lia). cbn [obind].
  rewrite imul_slice_same_shape; [done|]. rewrite ramp_length. lia.
Qed.

(** With a fade of zero samples the tail slice [audio_data[-0:]] is the
    whole array, which cannot be multiplied by the empty ramp. *)
Lemma synthesize_zero_fade (n : Z) :
  sample_count sample_rate duration = Ok n ->
  fade_samples sample_rate fade_seconds = Ok 0%Z ->
  alloc n = None -> alloc 0%Z = None ->
  (1 <= n)%Z -> synth = Raise ValueError.
Proof.
  intros Hn Hf Han Ha0 Hn1.
  rewrite (synthesize_multiplies n 0) by (done || lia).
  assert (Hb : Py.slice_bound (Z.to_nat n) 0 = 0%nat).
  { unfold Py.slice_bound. simpl. lia. }
  change (- 0)%Z with 0%Z. rewrite Hb.
  rewrite imul_slice_same_shape by done. cbn [obind].
  apply imul_slice_shape_mismatch; simpl; lia.
Qed.

(** No samples at all: a fade of 0 or 1 samples is accepted. *)
Lemma synthesize_no_samples (f : Z) :
  sample_count sample_rate duration = Ok 0%Z ->
  fade_samples sample_rate fade_seconds = Ok f ->
  alloc 0%Z = None -> alloc f = None ->
  (0 <= f <= 1)%Z -> synth = Ok [].
Proof.
  intros Hn Hf Ha0 Haf Hf01.
  rewrite (synthesize_multiplies 0 f) by (done || lia).
  assert (Hcases : f = 0%Z \/ f = 1%Z) by lia.
  destruct Hcases as [-> | ->]; reflexivity.
Qed.

Lemma synthesize_ok_shapes (w : list R) (n f : Z) :
  sample_count sample_rate duration = Ok n ->
  fade_samples sample_rate fade_seconds = Ok f ->
  synth = Ok w -> shapes_fit n f.
Proof.
  intros Hn Hf Hs.
  destruct (synthesize_inv _ Hs)
    as (n' & f' & a1 & Hn' & Hf' & Hn0 & Han & Hf0 & Haf & Ha1 & Hw).
  rewrite Hn in Hn'. injection Hn' as <-.
  rewrite Hf in Hf'. injection Hf' as <-.
  apply imul_slice_ok_shape in Ha1. rewrite ramp_length in Ha1.
  split; [done|].
  destruct (decide (f = 0%Z)) as [->|Hnz].
  - right. split; [|lia].
    destruct (decide (1 <= n)%Z) as [Hn1|]; [|lia].
    by rewrite (synthesize_zero_fade n) in Hs.
  - unfold Py.slice_bound in Ha1.
    destruct (Z.ltb_spec f 0); [lia|]. lia.
Qed.

(** When the counts are computed and the arrays allocated, the only
    exception left is the [ValueError] of a shape mismatch. *)
Lemma synthesize_raises_ValueError (n f : Z) (e : exn) :
  sample_count sample_rate duration = Ok n ->
  fade_samples sample_rate fade_seconds = Ok f ->
  alloc n = None -> alloc f = None ->
  synth = Raise e -> e = ValueError.
Proof.
  intros Hn Hf Han Haf. unfold synthesize. rewrite Hn. cbn [obind].
  unfold Np.linspace at 1. destruct (Z.ltb_spec n 0); [by intros [= <-]|].
  rewrite Han. cbn [obind]. cbv zeta. rewrite Hf. cbn [obind].
  unfold Np.linspace. destruct (Z.ltb_spec f 0); [by intros [= <-]|].
  rewrite Haf. cbn [obind].
  destruct (Np.imul_slice _ 0 _ _) as [a1|e0] eqn:Ha1; cbn [obind];
    [|intros [= <-]; by apply imul_slice_raises in Ha1].
  apply imul_slice_raises.
Qed.

(** Sample [i] after both in-place multiplies. *)
Lemma faded_lookup_gains (n f i : nat) (x : R) :
  (f <= n)%nat ->
  raw duration frequency amplitude n !! i = Some x ->
  Np.scale_window (Np.scale_window (raw duration frequency amplitude n) 0
                     (Np.ramp 0 1 f)) (n - f) (Np.ramp 1 0 f) !! i
  = Some (x * head_gain f i * tail_gain n f i).
Proof.
  intros Hfn Hx.
  assert (Hi : (i < n)%nat).
  { apply lookup_lt_Some in Hx. by rewrite raw_length in Hx. }
  rewrite (scale_window_lookup _ _ _ _ _ (scale_window_lookup _ _ _ _ _ Hx)).
  rewrite !ramp_length. f_equal. unfold head_gain, tail_gain.
  rewrite Nat.sub_0_r.
  replace (n - f + f)%nat with n by lia.
  replace (i <? n)%nat with true by (symmetry; apply Nat.ltb_lt; lia).
  rewrite andb_true_r. change (0 <=? i)%nat with true. cbn [andb].
  change (0 + f)%nat with f.
  destruct (Nat.ltb_spec i f) as [Hlt|Hge];
    destruct (Nat.leb_spec (n - f) i) as [Htail|Hmid];
    rewrite ?nth_ramp by lia; ring.
Qed.

(** With windows that do not overlap each sample meets one ramp at most. *)
Lemma gains_disjoint (n f i : nat) (x : R) :
  (2 * f <= n)%nat -> (i < n)%nat ->
  x * head_gain f i * tail_gain n f i = Spec.faded n f i x.
Proof.
  intros Hfit Hi. unfold head_gain, tail_gain, Spec.faded.
  destruct (Nat.ltb_spec i f) as [Hlt|Hge].
  - destruct (Nat.leb_spec (n - f) i) as [Htail|_]; [lia|].
    rewrite linspace_at_ramp by done. ring.
  - destruct (Nat.leb_spec (n - f) i) as [Htail|_]; [|ring].
    rewrite linspace_at_ramp by lia. ring.
Qed.

End synthesize_facts.

(** ** The waveform claims *)

Lemma fixture_faded :
  fixture
  = Ok (Np.scale_window
          (Np.scale_window (raw 5 440 0.3 (Z.to_nat 220500)) 0
             (Np.ramp 0 1 (Z.to_nat 4410)))
          (Z.to_nat 220500 - Z.to_nat 4410) (Np.ramp 1 0 (Z.to_nat 4410))).
Proof.
  unfold fixture. apply synthesize_faded; try reflexivity; lia.
Qed.

Lemma fixture_returns : exists w : list R, fixture = Ok w.
Proof. eexists. apply fixture_faded. Qed.

(** C1.  With the values hard-coded in [create_test_audio]
    ([sample_rate = 44100], [duration = 5.0], [frequency = 440], amplitude
    [0.3], fade [0.1] seconds) the waveform has exactly 220500 samples, the
    first and the last sample are 0, and no sample exceeds 0.3 in absolute
    value. *)
Theorem fixture_scenario :
  exists w : list R,
    fixture = Ok w
    /\ Z.of_nat (length w) = 220500%Z
    /\ w !! 0%nat = Some 0
    /\ last w = Some 0
    /\ Forall (fun x => Rabs x <= 3 / 10) w.
Proof.
  eexists. split; [apply fixture_faded|].
  assert (Hn : Z.of_nat (Z.to_nat 220500) = 220500%Z) by lia.
  assert (Hk : Z.of_nat (Z.to_nat 4410) = 4410%Z) by lia.
  revert Hn Hk. generalize (Z.to_nat 220500). generalize (Z.to_nat 4410).
  intros f n Hn Hk.
  assert (Hfn : (f <= n)%nat) by lia.
  split; [rewrite !scale_window_length, raw_length; lia|].
  split; [|split].
  - destruct (lookup_lt_is_Some_2 (raw 5 440 0.3 n) 0) as [x Hx];
      [rewrite raw_length; lia|].
    rewrite (faded_lookup_gains _ _ _ _ _ _ x Hfn Hx).
    rewrite gains_disjoint by lia. f_equal. unfold Spec.faded.
    replace (0 <? f)%nat with true by (symmetry; apply Nat.ltb_lt; lia).
    rewrite ramp_first. ring.
  - rewrite last_lookup, !scale_window_length, raw_length.
    destruct (lookup_lt_is_Some_2 (raw 5 440 0.3 n) (Nat.pred n))
      as [x Hx]; [rewrite raw_length; lia|].
    rewrite (faded_lookup_gains _ _ _ _ _ _ x Hfn Hx).
    rewrite gains_disjoint by lia. f_equal. unfold Spec.faded.
    replace (Nat.pred n <? f)%nat with false by (symmetry; apply Nat.ltb_ge; lia).
    replace (n - f <=? Nat.pred n)%nat with true by (symmetry; apply Nat.leb_le; lia).
    replace (Nat.pred n - (n - f))%nat with (f - 1)%nat by lia.
    rewrite ramp_last by lia. ring.
  - assert (Hamp : 0 <= Py.real 0.3 <= 3 / 10) by (real_constants; lra).
    assert (Hb : bounded (Py.real 0.3)
                   (Np.scale_window (Np.scale_window (raw 5 440 0.3 n) 0 (Np.ramp 0 1 f))
                      (n - f) (Np.ramp 1 0 f))).
    { apply scale_window_bounded; [|apply ramp_down_gains].
      apply scale_window_bounded; [|apply ramp_up_gains].
      apply tone_bounded. lra. }
    eapply Forall_impl; [exact Hb|]. simpl. intros x Hx. lra.
Qed.

(** The count is the truncated double product. *)
Lemma sample_count_inv (sample_rate : Z) (duration : float) (n : Z) :
  sample_count sample_rate duration = Ok n ->
  exists rate : float,
    Py.float sample_rate = Ok rate
    /\ Py.int (rate * duration)%float = Ok n
    /\ n = Py.trunc (Py.rational (rate * duration)%float).
Proof.
  unfold sample_count. destruct (Py.float sample_rate) as [rate|]; [|done].
  cbn [obind]. intros Hn. exists rate. split; [done|]. split; [done|].
  unfold Py.int in Hn. destruct (Prim2SF (rate * duration)); congruence.
Qed.

(** C3, as the code has it.  Whenever the count
    [n = int(sample_rate * duration)] is computed, it is the double product
    truncated toward zero, and every waveform the run returns has [n]
    samples; a waveform is returned whenever the fade length is between 1
    and [n] and the arrays can be allocated. *)
Theorem sample_count_truncates
    (alloc : Np.allocator) (sample_rate : Z)
    (duration frequency amplitude fade_seconds : float) (n : Z) :
  sample_count sample_rate duration = Ok n ->
  (exists rate : float,
     Py.float sample_rate = Ok rate
     /\ Py.int (rate * duration)%float = Ok n
     /\ n = Py.trunc (Py.rational (rate * duration)%float))
  /\ (forall w : list R,
        synthesize alloc sample_rate duration frequency amplitude fade_seconds = Ok w ->
        Z.of_nat (length w) = n)
  /\ (forall f : Z,
        fade_samples sample_rate fade_seconds = Ok f ->
        (1 <= f <= n)%Z -> alloc n = None -> alloc f = None ->
        exists w : list R,
          synthesize alloc sample_rate duration frequency amplitude fade_seconds = Ok w).
Proof.
  intros Hn. split; [by apply sample_count_inv|]. split.
  - intros w Hw. apply (synthesize_length _ _ _ _ _ _ _ _ Hn) in Hw. lia.
  - intros f Hf [Hf1 Hfn] Han Haf. eexists.
    by apply (synthesize_faded _ _ _ _ _ _ n f).
Qed.

Lemma sample_count_truncates_witness :
  sample_count 10 0.77 = Ok 7%Z
  /\ (7 < Py.rational (10 * 0.77)%float)%Q
  /\ exists w : list R,
       synthesize Np.ample 10 0.77 1 0.5 0.25 = Ok w /\ Z.of_nat (length w) = 7%Z.
Proof.
  assert (Hn : sample_count 10 0.77 = Ok 7%Z) by reflexivity.
  split; [exact Hn|]. split; [reflexivity|].
  destruct (sample_count_truncates Np.ample 10 0.77 1 0.5 0.25 7 Hn)
    as (_ & Hlen & Hex).
  destruct (Hex 2%Z) as [w Hw]; [reflexivity|lia|reflexivity|reflexivity|].
  exists w. split; [exact Hw|]. by apply Hlen.
Defined.

(** C3, as stated, fails: with [sample_rate = 4] and [duration = 0.6875] the
    product is [2.75]; the waveform has 2 samples and [round] gives 3. *)
Lemma sample_count_not_round :
  valid_parameters 4 0.6875 1 0.5 0.25
  /\ Py.rational (4 * 0.6875)%float == 11 # 4
  /\ Py.round (Py.rational (4 * 0.6875)%float) = 3%Z
  /\ exists w : list R,
       synthesize Np.ample 4 0.6875 1 0.5 0.25 = Ok w
       /\ Z.of_nat (length w) = 2%Z
       /\ Z.of_nat (length w) <> Py.round (Py.rational (4 * 0.6875)%float).
Proof.
  split; [valid_by_computation|]. split; [by vm_compute|]. split; [by vm_compute|].
  eexists. split.
  - apply (synthesize_faded _ _ _ _ _ _ 2 1); try reflexivity; lia.
  - rewrite !scale_window_length, raw_length.
    split; [reflexivity|]. by vm_compute.
Qed.





Lemma sample_count_zero_rate (duration : float) :
  Py.finite duration = true -> sample_count 0 duration = Ok 0%Z.
Proof.
  intros Hd. unfold sample_count. change (Py.float 0) with (Ok 0%float).
  cbn [obind]. by apply int_mul_zero_l.
Qed.

Lemma fade_samples_zero_rate (fade_seconds : float) :
  Py.finite fade_seconds = true -> fade_samples 0 fade_seconds = Ok 0%Z.
Proof.
  intros Hd. unfold fade_samples. change (Py.float 0) with (Ok 0%float).
  cbn [obind]. by apply int_mul_zero_r.
Qed.

Lemma fade_samples_zero_fade (sample_rate : Z) (rate : float) :
  Py.float sample_rate = Ok rate -> fade_samples sample_rate 0 = Ok 0%Z.
Proof.
  intros Hr. unfold fade_samples. rewrite Hr. cbn [obind].
  apply int_mul_zero_l. by eapply float_finite.
Qed.

Lemma synthesize_zero_rate
    (alloc : Np.allocator) (duration frequency amplitude fade_seconds : float) :
  Py.finite duration = true -> Py.finite fade_seconds = true ->
  alloc 0%Z = None ->
  synthesize alloc 0 duration frequency amplitude fade_seconds = Ok [].
Proof.
  intros Hd Hf Ha.
  apply (synthesize_no_samples _ _ _ _ _ _ 0);
    [by apply sample_count_zero_rate|by apply fade_samples_zero_rate|done|done|lia].
Qed.

(** C6, as the code has it.  [synthesize] validates nothing: with
    [sample_rate = 0] and finite [duration] and [fade_seconds] it raises no
    error and returns the empty waveform, whatever the other parameters
    are. *)
Theorem no_parameter_validation
    (alloc : Np.allocator) (duration frequency amplitude fade_seconds : float) :
  Py.finite duration = true -> Py.finite fade_seconds = true ->
  alloc 0%Z = None ->
  synthesize alloc 0 duration frequency amplitude fade_seconds = Ok [].
Proof. apply synthesize_zero_rate. Qed.

Lemma no_parameter_validation_witness :
  synthesize Np.ample 0 2.5 1 0.5 0.25 = Ok [].
Proof.
  apply (no_parameter_validation Np.ample 2.5 1 0.5 0.25); reflexivity.
Defined.

(** C6, as stated, fails: [sample_rate = 0] violates the constraint
    [sample_rate > 0], and [synthesize] returns a (empty) waveform instead of
    failing. *)
Lemma zero_rate_not_rejected :
  ~ valid_parameters 0 5 440 0.3 0.1
  /\ synthesize Np.ample 0 5 440 0.3 0.1 = Ok [].
Proof.
  split.
  - intros [Hsr _ _ _ _]. lia.
  - apply synthesize_zero_rate; reflexivity.
Qed.

(** C9, as the code has it.  With [fade_seconds = 0] the fade length is 0.
    When there is at least one sample the run ends in numpy's [ValueError]:
    the tail slice [audio_data[-0:]] is the whole array, and it cannot be
    multiplied by the empty ramp.  Only when there are no samples is the
    (empty) waveform returned. *)
Theorem zero_fade_outcome
    (alloc : Np.allocator) (sample_rate : Z)
    (duration frequency amplitude : float) (n : Z) :
  sample_count sample_rate duration = Ok n ->
  alloc n = None -> alloc 0%Z = None ->
  fade_samples sample_rate 0 = Ok 0%Z
  /\ ((1 <= n)%Z ->
      synthesize alloc sample_rate duration frequency amplitude 0 = Raise ValueError)
  /\ (n = 0%Z ->
      synthesize alloc sample_rate duration frequency amplitude 0 = Ok []).
Proof.
  intros Hn Han Ha0.
  assert (Hf : fade_samples sample_rate 0 = Ok 0%Z).
  { destruct (sample_count_inv _ _ _ Hn) as (rate & Hr & _).
    by eapply fade_samples_zero_fade. }
  split; [exact Hf|]. split.
  - intros Hn1. by apply (synthesize_zero_fade _ _ _ _ _ _ n).
  - intros ->. by apply (synthesize_no_samples _ _ _ _ _ _ 0).
Qed.

Lemma zero_fade_outcome_witness :
  sample_count 8 1 = Ok 8%Z
  /\ synthesize Np.ample 8 1 1 0.5 0 = Raise ValueError.
Proof.
  assert (Hn : sample_count 8 1 = Ok 8%Z) by reflexivity.
  split; [exact Hn|].
  destruct (zero_fade_outcome Np.ample 8 1 1 0.5 8 Hn eq_refl eq_refl)
    as (_ & Hraise & _).
  apply Hraise. lia.
Defined.

(** C9, as stated, fails: with [fade_seconds = 0] and the other hard-coded
    values, a valid parameter set, no waveform is returned. *)
Lemma zero_fade_raises :
  valid_parameters 44100 5 440 0.3 0
  /\ fade_samples 44100 0 = Ok 0%Z
  /\ synthesize Np.ample 44100 5 440 0.3 0 = Raise ValueError.
Proof.
  split; [valid_by_computation|]. split; [reflexivity|].
  apply (synthesize_zero_fade _ _ _ _ _ _ 220500); try reflexivity. lia.
Qed.

(** X1.  The outcome of the synthesis once both counts are computed and the
    arrays allocated, for every parameter set, valid or not.  With
    [n = int(sample_rate * duration)] and [f = int(fade * sample_rate)], a
    waveform is returned exactly when [1 <= f <= n], or when [n = 0] and [f]
    is 0 or 1; it then has [n] samples.  In every other case the run ends in
    [ValueError]. *)
Theorem synthesize_outcome
    (alloc : Np.allocator) (sample_rate : Z)
    (duration frequency amplitude fade_seconds : float) (n f : Z) :
  sample_count sample_rate duration = Ok n ->
  fade_samples sample_rate fade_seconds = Ok f ->
  alloc n = None -> alloc f = None ->
  match synthesize alloc sample_rate duration frequency amplitude fade_seconds with
  | Ok w => shapes_fit n f /\ length w = Z.to_nat n
  | Raise e => e = ValueError /\ ~ shapes_fit n f
  end.
Proof.
  intros Hn Hf Han Haf.
  destruct (synthesize _ _ _ _ _ _) as [w|e] eqn:Hs.
  - split; [by eapply synthesize_ok_shapes|].
    by apply (synthesize_length _ _ _ _ _ _ _ _ Hn) in Hs as [_ ?].
  - split; [by eapply synthesize_raises_ValueError|].
    intros [Hn0 [[Hf1 Hfn]|[-> Hf01]]].
    + by rewrite (synthesize_faded _ _ _ _ _ _ n f) in Hs.
    + by rewrite (synthesize_no_samples _ _ _ _ _ _ f) in Hs.
Qed.

(** The witness has [fade * sample_rate = (1/3) * 3], whose double product
    is [1.0]: the fade has one sample and a waveform is returned. *)
Lemma synthesize_outcome_witness :
  fade_samples 3 (1 / 3) = Ok 1%Z
  /\ exists w : list R,
       synthesize Np.ample 3 1 1 0.5 (1 / 3) = Ok w /\ length w = 3%nat.
Proof.
  split; [reflexivity|].
  pose proof (synthesize_outcome Np.ample 3 1 1 0.5 (1 / 3) 3 1
                eq_refl eq_refl eq_refl eq_refl) as H.
  destruct (synthesize Np.ample 3 1 1 0.5 (1 / 3)) as [w|e].
  - exists w. split; [reflexivity|]. by destruct H.
  - destruct H as [_ H]. exfalso. apply H. unfold shapes_fit. lia.
Defined.



(** ** The store model agrees with the functional one *)

Section store_facts.

Lemma imul_view_last (h : Store.heap) (a : list R) (lo hi : nat) (w : list R) :
  Store.imul_view (length h) lo hi w (h ++ [a])
  = match Np.imul_slice a lo hi w with
    | Ok a' => Ok (tt, h ++ [a'])
    | Raise e => Raise e
    end.
Proof.
  cbv [Store.imul_view Store.bind Store.read Store.lift Store.write].
  rewrite list_lookup_middle by done.
  destruct (Np.imul_slice a lo hi w) as [a'|e]; [|done].
  rewrite insert_app_r_alt by lia. by rewrite Nat.sub_diag.
Qed.

Lemma lookup_second_new (h : Store.heap) (a b : list R) :
  (h ++ [a; b]) !! S (length h) = Some b.
Proof.
  rewrite lookup_app_r by lia.
  by replace (S (length h) - length h)%nat with 1%nat by lia.
Qed.

Lemma synthesize_st_pure
    (alloc : Np.allocator) (sample_rate : Z)
    (duration frequency amplitude fade_seconds : float) (h : Store.heap) :
  synthesize_st alloc sample_rate duration frequency amplitude fade_seconds h
  = match synthesize alloc sample_rate duration frequency amplitude fade_seconds with
    | Ok w => Ok (S (length h), h ++ [time_axis duration (length w); w])
    | Raise e => Raise e
    end.
Proof.
  unfold synthesize_st, synthesize.
  cbv [Store.bind Store.lift Store.alloc Store.read Store.ret].
  destruct (sample_count sample_rate duration) as [n|e]; [|done]. cbn [obind].
  destruct (Np.linspace alloc 0 (Py.real duration) n) as [t|e] eqn:Ht; [|done].
  apply linspace_inv in Ht as (Ht & _ & _).
  rewrite list_lookup_middle by done. cbv beta iota.
  destruct (fade_samples sample_rate fade_seconds) as [f|e]; cbn [obind];
    [|done].
  rewrite list_lookup_middle by done. cbv beta iota. cbv zeta.
  destruct (Np.linspace alloc 0 1 f) as [g|e]; [|done]. cbn [obind]. cbv beta iota.
  rewrite imul_view_last.
  destruct (Np.imul_slice _ 0 _ g) as [a1|e] eqn:Ha1; [|done]. cbn [obind].
  destruct (Np.linspace alloc 1 0 f) as [g'|e]; [|done]. cbn [obind]. cbv beta iota.
  rewrite imul_view_last.
  destruct (Np.imul_slice a1 _ _ g') as [a2|e] eqn:Ha2; [|done].
  apply imul_slice_length in Ha1, Ha2.
  rewrite Ha2, Ha1, tone_length, Ht, ramp_length. unfold time_axis.
  rewrite length_app. simpl.
  rewrite <- app_assoc. simpl. do 2 f_equal. lia.
Qed.

End store_facts.

(** C8.  Two runs of the synthesis with identical arguments, started in any
    two stores of arrays, end the same way: either both raise the same
    exception, or both return arrays holding the same samples, equal element
    by element (so also within a tolerance of 1e-9); and a run changes no
    array that existed before it. *)
Theorem synthesis_deterministic
    (alloc : Np.allocator) (sample_rate : Z)
    (duration frequency amplitude fade_seconds : float)
    (h1 h2 : Store.heap) :
  match synthesize_st alloc sample_rate duration frequency amplitude fade_seconds h1,
        synthesize_st alloc sample_rate duration frequency amplitude fade_seconds h2 with
  | Ok (r1, h1'), Ok (r2, h2') =>
      exists w1 w2 : list R,
        h1' !! r1 = Some w1
        /\ h2' !! r2 = Some w2
        /\ w1 = w2
        /\ Forall2 (fun x y => Rabs (x - y) <= 1 / 10 ^ 9) w1 w2
        /\ take (length h1) h1' = h1
        /\ take (length h2) h2' = h2
  | Raise e1, Raise e2 => e1 = e2
  | _, _ => False
  end.
Proof.
  rewrite !synthesize_st_pure.
  destruct (synthesize alloc sample_rate duration frequency amplitude fade_seconds)
    as [w|e]; [|done].
  exists w, w.
  split; [apply lookup_second_new|]. split; [apply lookup_second_new|].
  split; [done|]. split.
  - apply Forall2_same_length_lookup_2; [done|].
    intros i x y Hx Hy. rewrite Hx in Hy. injection Hy as <-.
    rewrite Rminus_diag, Rabs_R0.
    apply Rlt_le, Rdiv_lt_0_compat; [lra|]. apply pow_lt. lra.
  - by rewrite !take_app_length.
Qed.

(** ** Writing and converting the fixture *)

(** After a successful PCM write the temporary file is gone however the
    call ends. *)
Lemma temp_file_removed_after_write (e : Persist.env) (fs : gmap string Persist.file) :
  Persist.mkdir_error e = None ->
  Persist.sf_write_error e = None ->
  (Persist.create_test_audio e fs).1 !! Persist.temp_name e = None.
Proof.
  intros Hmk Hsf. destruct fixture_returns as [w Hw].
  unfold Persist.create_test_audio, Persist.persist.
  rewrite Hw, Hmk, Hsf. cbv zeta. unfold Persist.finally. cbn [fst].
  apply lookup_delete_eq.
Qed.

(** C2, as the code has it.  After a successful PCM write: when the encoder
    exits with a non-zero status the call returns [None]; when the encoder
    binary is not found and the copy succeeds, the call returns the path of
    the PCM copy in the test directory, and that file holds the waveform.  In
    both cases the call returns and raises nothing. *)
Theorem encoder_failure_outcomes (e : Persist.env) (fs : gmap string Persist.file) :
  Persist.mkdir_error e = None ->
  Persist.sf_write_error e = None ->
  (Persist.ffmpeg e = Persist.ExitNonZero ->
   (Persist.create_test_audio e fs).2 = Ok None)
  /\ (Persist.ffmpeg e = Persist.NotInstalled ->
      Persist.copy_error e = None ->
      Persist.temp_name e <> Persist.wav_path ->
      (Persist.create_test_audio e fs).2 = Ok (Some Persist.wav_path)
      /\ exists w : list R,
           fixture = Ok w
           /\ (Persist.create_test_audio e fs).1 !! Persist.wav_path
              = Some (Persist.Wav w 44100)).
Proof.
  intros Hmk Hsf. destruct fixture_returns as [w Hw].
  unfold Persist.create_test_audio, Persist.persist.
  rewrite Hw, Hmk, Hsf. cbv zeta. split.
  - intros Henc. unfold Persist.try_body. rewrite Henc. reflexivity.
  - intros Henc Hcp Hne. unfold Persist.try_body. rewrite Henc.
    unfold Persist.handlers. rewrite lookup_insert_eq, Hcp.
    split; [reflexivity|]. exists w. split; [reflexivity|].
    unfold Persist.finally. cbn [fst].
    rewrite lookup_delete_ne by done. apply lookup_insert_eq.
Qed.

Lemma encoder_failure_outcomes_witness :
  let e := {| Persist.mkdir_error := None;
              Persist.temp_name := "/tmp/tmpk3v9x1qa.wav";
              Persist.sf_write_error := None;
              Persist.ffmpeg := Persist.NotInstalled;
              Persist.copy_error := None |} in
  Persist.mkdir_error e = None
  /\ Persist.sf_write_error e = None
  /\ (Persist.create_test_audio e ∅).2 = Ok (Some Persist.wav_path).
Proof.
  intros e. split; [reflexivity|]. split; [reflexivity|].
  destruct (encoder_failure_outcomes e ∅ eq_refl eq_refl) as [_ Hmissing].
  destruct Hmissing as [Hres _]; [reflexivity|reflexivity|by vm_compute|].
  exact Hres.
Defined.

(** C2, as stated, fails: when the encoder exits with a non-zero status the
    caller receives [None], not the path of the PCM file. *)
Lemma encoder_nonzero_returns_None :
  let e := {| Persist.mkdir_error := None;
              Persist.temp_name := "/tmp/tmpk3v9x1qa.wav";
              Persist.sf_write_error := None;
              Persist.ffmpeg := Persist.ExitNonZero;
              Persist.copy_error := None |} in
  (Persist.create_test_audio e ∅).2 = Ok None
  /\ forall path : string, (Persist.create_test_audio e ∅).2 <> Ok (Some path).
Proof.
  intros e. destruct fixture_returns as [w Hw].
  assert (Hres : (Persist.create_test_audio e ∅).2 = Ok None).
  { unfold Persist.create_test_audio, Persist.persist. rewrite Hw. reflexivity. }
  split; [exact Hres|]. intros path. rewrite Hres. discriminate.
Qed.

(** C7, on the code.  When [sf.write] fails, the call ends with that
    exception and the temporary file it created is still on disk: the write
    lies outside the [try] whose [finally] removes the file. *)
Theorem temp_file_left_after_write_error :
  let e := {| Persist.mkdir_error := None;
              Persist.temp_name := "/tmp/tmpk3v9x1qa.wav";
              Persist.sf_write_error := Some OSError;
              Persist.ffmpeg := Persist.Exit0;
              Persist.copy_error := None |} in
  (Persist.create_test_audio e ∅).2 = Raise OSError
  /\ (Persist.create_test_audio e ∅).1 !! Persist.temp_name e = Some Persist.Blank.
Proof.
  intros e. destruct fixture_returns as [w Hw].
  unfold Persist.create_test_audio, Persist.persist. rewrite Hw.
  cbn [Persist.mkdir_error Persist.sf_write_error e]. cbv zeta.
  split; [reflexivity|]. cbn [fst]. apply lookup_insert_eq.
Qed.

(** X8.  The call touches three paths at most: every file other than the
    temporary file, the WebM file and the WAV file is after the call what it
    was before, however the call ends. *)
Theorem other_files_untouched
    (e : Persist.env) (fs : gmap string Persist.file) (path : string) :
  path <> Persist.temp_name e ->
  path <> Persist.webm_path ->
  path <> Persist.wav_path ->
  (Persist.create_test_audio e fs).1 !! path = fs !! path.
Proof.
  intros Htemp Hwebm Hwav.
  destruct fixture_returns as [w Hw].
  unfold Persist.create_test_audio, Persist.persist. rewrite Hw. clear Hw.
  destruct (Persist.mkdir_error e); [done|].
  destruct (Persist.sf_write_error e); cbv zeta;
    [cbn [fst]; by rewrite lookup_insert_ne|].
  unfold Persist.finally. cbn [fst]. rewrite lookup_delete_ne by done.
  unfold Persist.try_body, Persist.stat, Persist.handlers.
  repeat (case_match; simplify_eq; cbn [fst]);
    rewrite ?lookup_insert_ne by done; done.
Qed.

Lemma other_files_untouched_witness :
  let e := {| Persist.mkdir_error := None;
              Persist.temp_name := "/tmp/tmpk3v9x1qa.wav";
              Persist.sf_write_error := None;
              Persist.ffmpeg := Persist.Exit0;
              Persist.copy_error := None |} in
  let fs : gmap string Persist.file := {[ "/home/koe/notes.txt" := Persist.Blank ]} in
  (Persist.create_test_audio e fs).1 !! "/home/koe/notes.txt" = Some Persist.Blank.
Proof.
  intros e fs.
  rewrite (other_files_untouched e fs "/home/koe/notes.txt");
    [apply lookup_singleton_eq| | |]; by vm_compute.
Defined.

(** X10.  After a successful PCM write the temporary file is gone however
    the call ends: encoder success, encoder failure, missing encoder, and a
    failing copy alike. *)
Theorem temp_file_removed_once_written
    (e : Persist.env) (fs : gmap string Persist.file) :
  Persist.mkdir_error e = None ->
  Persist.sf_write_error e = None ->
  (Persist.create_test_audio e fs).1 !! Persist.temp_name e = None.
Proof. apply temp_file_removed_after_write. Qed.

Lemma temp_file_removed_once_written_witness :
  let e := {| Persist.mkdir_error := None;
              Persist.temp_name := "/tmp/tmpk3v9x1qa.wav";
              Persist.sf_write_error := None;
              Persist.ffmpeg := Persist.NotInstalled;
              Persist.copy_error := Some OSError |} in
  (Persist.create_test_audio e ∅).1 !! Persist.temp_name e = None.
Proof.
  intros e. apply (temp_file_removed_once_written e ∅); reflexivity.
Defined.

(** ** The configuration script *)

Example config_file_joined :
  Config.config_file "/srv/koe-note" = "/srv/koe-note/whisper-server/src/whisper_server/config.py"
  /\ Config.config_file EmptyString = "whisper-server/src/whisper_server/config.py".
Proof. split; reflexivity. Qed.

(** C10.  [change_config_version] changes no file and leaves
    [CURRENT_MEDIUM_CONFIG_VERSION] as it was, for every version argument;
    all it does is print the five lines of instructions. *)
Theorem change_config_version_frame
    (script_dir : string) (version : Z) (w : Config.world) :
  Config.files (Config.change_config_version script_dir version w) = Config.files w
  /\ Config.CURRENT_MEDIUM_CONFIG_VERSION
       (Config.change_config_version script_dir version w)
     = Config.CURRENT_MEDIUM_CONFIG_VERSION w
  /\ Config.stdout (Config.change_config_version script_dir version w)
     = Config.stdout w ++ Config.instructions script_dir version.
Proof.
  unfold Config.change_config_version, Config.print, Config.instructions.
  cbn [Config.files Config.CURRENT_MEDIUM_CONFIG_VERSION Config.stdout].
  split; [reflexivity|]. split; [reflexivity|].
  rewrite <- !app_assoc. reflexivity.
Qed.

